(** * falcon.media.validators.jsonschema

    A shallow embedding of Falcon's JSON Schema validation decorator
    ([validate], [_validate], [_validate_async]) and the properties its
    specification states about it.

    The decorator is glue between three parties that live outside the file:
    the request and response objects of the framework ([req.media],
    [req.get_media()], [resp.media]), the [jsonschema] package
    ([jsonschema.validate], [jsonschema.FormatChecker]) and the decorated
    responder.  The wrappers are modelled once, generically, over those
    parties (section [Decorator]); a fragment of [jsonschema] and a small
    framework are then given concretely (modules [Jsonschema] and [Demo]) so
    that every statement can be run on actual payloads.  Module [Shared]
    reads the same wrappers with payloads and schemas as objects passed by
    reference, for what the wrappers write and do not write. *)

From Stdlib Require Import String Ascii List ZArith Bool Lia DecimalString.
Import ListNotations.
Open Scope string_scope.
Set Warnings "-register-all,-notation-for-abbreviation".

(** ** Data *)

(** A deserialized media object: what [req.media] and [resp.media] hold, and
    what a schema is written in.  A Python [dict] keeps insertion order, and
    the validator reports errors in that order, so an object is an
    association list.  [JNull] is Python's [None]. *)
Inductive json : Type :=
| JNull
| JBool (b : bool)
| JNum (n : Z)
| JStr (s : string)
| JArr (items : list json)
| JObj (members : list (string * json)).

(** [jsonschema.FormatChecker(formats=None)]: the formats it checks, [None]
    standing for every registered checker. *)
Inductive FormatChecker : Type :=
| MkFormatChecker (formats : option (list string)).

(** [jsonschema.FormatChecker()] as the wrappers construct it. *)
Definition FormatChecker_new : FormatChecker := MkFormatChecker None.

(** The exceptions that matter to the wrappers.  [ValidationError] and
    [SchemaError] are [jsonschema]'s, the two [HTTP...] errors are Falcon's
    (title, then the optional [description]); [OtherException] is any
    exception of another class, named. *)
Inductive exn : Type :=
| ValidationError (message : string)
| SchemaError (message : string)
| HTTPBadRequest (title : string) (description : option string)
| HTTPInternalServerError (title : string) (description : option string)
| OtherException (name : string).

(** How a call ends. *)
Inductive outcome (A : Type) : Type :=
| Returned (a : A)
| Raised (e : exn).
Arguments Returned {A} a.
Arguments Raised {A} e.

(** What one call of [jsonschema.validate] does: it returns [None]
    ([Valid]), raises [ValidationError] ([Invalid]), raises [SchemaError]
    because the schema itself is malformed ([SchemaInvalid]), or fails with
    some other exception ([Crashed]). *)
Inductive validation : Type :=
| Valid
| Invalid (message : string)
| SchemaInvalid (message : string)
| Crashed (name : string).

Definition raised_by (v : validation) : option exn :=
  match v with
  | Valid => None
  | Invalid message => Some (ValidationError message)
  | SchemaInvalid message => Some (SchemaError message)
  | Crashed name => Some (OtherException name)
  end.

Definition validation_outcome (v : validation) : outcome unit :=
  match raised_by v with
  | None => Returned tt
  | Some e => Raised e
  end.

(** ** Observable events

    The order in which a wrapper touches its environment is part of its
    contract, so every call it makes to the outside is recorded, with what
    the call gave back.  The two [jsonschema.validate] calls are told apart
    by the place of the call in the source. *)
Inductive site : Type :=
| RequestSite     (* the call on the request media *)
| ResponseSite.   (* the call on the response media *)

Inductive event : Type :=
| EvMedia (o : outcome json)
    (* req.media was read / req.get_media() was awaited *)
| EvValidate (at_site : site) (instance schema : json)
             (format_checker : option FormatChecker) (v : validation)
    (* jsonschema.validate(instance, schema, format_checker=...) *)
| EvCall
    (* func(self, req, resp, *args, **kwargs) was entered *)
| EvReturn
    (* func returned *)
| EvRaise (e : exn).
    (* func raised e *)

(** The steps of a run, by kind. *)
Definition is_request_step (e : event) : bool :=
  match e with
  | EvMedia _ => true
  | EvValidate RequestSite _ _ _ _ => true
  | _ => false
  end.

Definition is_response_validation (e : event) : bool :=
  match e with
  | EvValidate ResponseSite _ _ _ _ => true
  | _ => false
  end.

Definition is_responder_step (e : event) : bool :=
  match e with
  | EvCall | EvReturn | EvRaise _ => true
  | _ => false
  end.

(** Every step of kind [P] comes strictly before every step of kind [Q]. *)
Definition precedes (P Q : event -> bool) (t : list event) : Prop :=
  forall i j x y,
    nth_error t i = Some x -> nth_error t j = Some y ->
    P x = true -> Q y = true -> i < j.

(** ** Computations

    A computation runs in a world (the request, the response, and whatever
    else a responder can reach), ends by returning or raising, leaves a world
    behind in both cases, and records the events it caused. *)
Record run (W A : Type) : Type := MkRun {
  result : outcome A;
  final : W;
  events : list event
}.
Arguments MkRun {W A} result final events.
Arguments result {W A} r.
Arguments final {W A} r.
Arguments events {W A} r.

Definition M (W A : Type) : Type := W -> run W A.

Definition ret {W A} (a : A) : M W A :=
  fun w => MkRun (Returned a) w [].

Definition raise {W A} (e : exn) : M W A :=
  fun w => MkRun (Raised e) w [].

Definition bind {W A B} (m : M W A) (k : A -> M W B) : M W B :=
  fun w =>
    let r := m w in
    match result r with
    | Returned a =>
        let r' := k a (final r) in
        MkRun (result r') (final r') (events r ++ events r')
    | Raised e => MkRun (Raised e) (final r) (events r)
    end.

(** [try: m  except ...: h e]; a handler that does not match re-raises. *)
Definition try_except {W A} (m : M W A) (h : exn -> M W A) : M W A :=
  fun w =>
    let r := m w in
    match result r with
    | Returned a => r
    | Raised e =>
        let r' := h e (final r) in
        MkRun (result r') (final r') (events r ++ events r')
    end.

(** The clause [except jsonschema.ValidationError as e]. *)
Definition except_ValidationError {W A} (h : string -> M W A) (e : exn) : M W A :=
  match e with
  | ValidationError message => h message
  | _ => raise e
  end.

Declare Scope py_scope.
Delimit Scope py_scope with py.
Notation "x <- m ;; k" := (bind m (fun x => k))
  (at level 61, m at next level, right associativity) : py_scope.
Notation "m ;;; k" := (bind m (fun _ => k))
  (at level 61, right associativity) : py_scope.
Open Scope py_scope.

(** ** The decorator *)

Section Decorator.

(** The framework: the world and the three accessors the wrappers use.
    [req.media] (a property that deserializes the body on first use) and
    the coroutine [req.get_media()] can change the world and can raise;
    [resp.media] reads an attribute. *)
Variable world : Type.
Variable req_media : world -> outcome json * world.
Variable req_get_media : world -> outcome json * world.
Variable resp_media : world -> json.

(** The [jsonschema] package: [jsonschema.validate(instance, schema,
    format_checker=...)].  It inspects its arguments and changes
    nothing. *)
Variable jsonschema_validate : json -> json -> option FormatChecker -> validation.

(** A responder [func(self, req, resp, *args, **kwargs)]: [req] and [resp]
    are objects of the world, [args] is everything else it is passed, [R]
    what it returns.  A coroutine function is modelled by what awaiting
    its coroutine does; other tasks interleaving at an [await] are outside
    the model. *)
Variable args : Type.
Variable R : Type.

Definition responder : Type := args -> world -> outcome R * world.

Inductive callable : Type :=
| Function (f : responder)            (* def func(...) *)
| CoroutineFunction (f : responder).  (* async def func(...) *)

Definition iscoroutinefunction (func : callable) : bool :=
  match func with
  | Function _ => false
  | CoroutineFunction _ => true
  end.

Definition body (func : callable) : responder :=
  match func with
  | Function f => f
  | CoroutineFunction f => f
  end.

(** The calls to the outside, recorded. *)

Definition get_req_media : M world json :=
  fun w => let (o, w') := req_media w in MkRun o w' [EvMedia o].

Definition await_req_get_media : M world json :=
  fun w => let (o, w') := req_get_media w in MkRun o w' [EvMedia o].

Definition get_resp_media : M world json :=
  fun w => MkRun (Returned (resp_media w)) w [].

Definition call_validate (s : site) (instance schema : json)
           (format_checker : option FormatChecker) : M world unit :=
  fun w =>
    let v := jsonschema_validate instance schema format_checker in
    MkRun (validation_outcome v) w [EvValidate s instance schema format_checker v].

Definition call_func (func : responder) (a : args) : M world R :=
  fun w =>
    let (o, w') := func a w in
    MkRun o w'
          (EvCall :: match o with
                     | Returned _ => [EvReturn]
                     | Raised e => [EvRaise e]
                     end).

(** [_validate(func, req_schema, resp_schema)]: the [wrapper] it returns. *)
Definition _validate (func : responder) (req_schema resp_schema : option json)
  : args -> M world R :=
  fun a =>
    match req_schema with
    | Some schema =>
        try_except
          (m <- get_req_media ;;
           call_validate RequestSite m schema (Some FormatChecker_new))
          (except_ValidationError (fun message =>
             raise (HTTPBadRequest "Request data failed validation"
                                   (Some message))))
    | None => ret tt
    end ;;;
    result <- call_func func a ;;
    match resp_schema with
    | Some schema =>
        try_except
          (m <- get_resp_media ;;
           call_validate ResponseSite m schema (Some FormatChecker_new))
          (except_ValidationError (fun _ =>
             raise (HTTPInternalServerError "Response data failed validation"
                                            None)))
    | None => ret tt
    end ;;;
    ret result.

(** [_validate_async(func, req_schema, resp_schema)]: the [wrapper] it
    returns.  The media is awaited before the [try] block is entered. *)
Definition _validate_async (func : responder) (req_schema resp_schema : option json)
  : args -> M world R :=
  fun a =>
    match req_schema with
    | Some schema =>
        m <- await_req_get_media ;;
        try_except
          (call_validate RequestSite m schema (Some FormatChecker_new))
          (except_ValidationError (fun message =>
             raise (HTTPBadRequest "Request data failed validation"
                                   (Some message))))
    | None => ret tt
    end ;;;
    result <- call_func func a ;;
    match resp_schema with
    | Some schema =>
        try_except
          (m <- get_resp_media ;;
           call_validate ResponseSite m schema (Some FormatChecker_new))
          (except_ValidationError (fun _ =>
             raise (HTTPInternalServerError "Response data failed validation"
                                            None)))
    | None => ret tt
    end ;;;
    ret result.

(** [validate(req_schema, resp_schema)(func)]. *)
Definition validate (req_schema resp_schema : option json) (func : callable)
  : args -> M world R :=
  if iscoroutinefunction func
  then _validate_async (body func) req_schema resp_schema
  else _validate (body func) req_schema resp_schema.

(** *** Vocabulary of the specification *)

(** How the wrapper that [validate] selects for [func] obtains the request
    media. *)
Definition media_of (func : callable) : world -> outcome json * world :=
  if iscoroutinefunction func then req_get_media else req_media.

(** The world in which the responder starts, when it is reached. *)
Definition request_world (req_schema : option json) (func : callable) (w : world) : world :=
  match req_schema with
  | Some _ => snd (media_of func w)
  | None => w
  end.

(** The request body satisfies the request schema, or there is none. *)
Definition request_accepted (req_schema : option json) (func : callable) (w : world) : Prop :=
  match req_schema with
  | Some schema =>
      exists m, fst (media_of func w) = Returned m /\
                jsonschema_validate m schema (Some FormatChecker_new) = Valid
  | None => True
  end.

(** The response body satisfies the response schema, or there is none. *)
Definition response_accepted (resp_schema : option json) (w : world) : Prop :=
  match resp_schema with
  | Some schema =>
      jsonschema_validate (resp_media w) schema (Some FormatChecker_new) = Valid
  | None => True
  end.

(** *** The run of a wrapper, stage by stage

    What the request stage, the response stage and a whole wrapped call
    amount to, written without the monad.  The wrappers above are the
    model of the source; these are what they are proved to compute
    (lemma [validate_exchange]), and every property is read off them. *)

Definition request_run (req_schema : option json) (func : callable) (w : world)
  : run world unit :=
  match req_schema with
  | Some schema =>
      let (o, w1) := media_of func w in
      match o with
      | Returned m =>
          let v := jsonschema_validate m schema (Some FormatChecker_new) in
          MkRun (match v with
                 | Invalid message =>
                     Raised (HTTPBadRequest "Request data failed validation"
                                            (Some message))
                 | _ => validation_outcome v
                 end)
                w1
                [EvMedia o; EvValidate RequestSite m schema (Some FormatChecker_new) v]
      | Raised e =>
          MkRun (Raised (match e, iscoroutinefunction func with
                         | ValidationError message, false =>
                             HTTPBadRequest "Request data failed validation"
                                            (Some message)
                         | _, _ => e
                         end))
                w1 [EvMedia o]
      end
  | None => MkRun (Returned tt) w []
  end.

Definition response_run (resp_schema : option json) (w : world) : run world unit :=
  match resp_schema with
  | Some schema =>
      let v := jsonschema_validate (resp_media w) schema (Some FormatChecker_new) in
      MkRun (match v with
             | Invalid _ =>
                 Raised (HTTPInternalServerError "Response data failed validation"
                                                 None)
             | _ => validation_outcome v
             end)
            w
            [EvValidate ResponseSite (resp_media w) schema (Some FormatChecker_new) v]
  | None => MkRun (Returned tt) w []
  end.

Definition exchange (req_schema resp_schema : option json) (func : callable)
           (a : args) (w : world) : run world R :=
  let q := request_run req_schema func w in
  match result q with
  | Raised e => MkRun (Raised e) (final q) (events q)
  | Returned _ =>
      let (o, w2) := body func a (final q) in
      match o with
      | Raised e => MkRun (Raised e) w2 (events q ++ [EvCall; EvRaise e])
      | Returned x =>
          let p := response_run resp_schema w2 in
          MkRun (match result p with
                 | Returned _ => Returned x
                 | Raised e => Raised e
                 end)
                (final p) (events q ++ [EvCall; EvReturn] ++ events p)
      end
  end.

End Decorator.

Arguments responder world args R : clear implicits.
Arguments callable world args R : clear implicits.
Arguments Function {world args R} f.
Arguments CoroutineFunction {world args R} f.
Arguments iscoroutinefunction {world args R} func.
Arguments body {world args R} func.
Arguments get_req_media {world} req_media.
Arguments await_req_get_media {world} req_get_media.
Arguments get_resp_media {world} resp_media.
Arguments call_validate {world} jsonschema_validate s instance schema format_checker.
Arguments call_func {world args R} func a.
Arguments _validate {world} req_media resp_media jsonschema_validate {args R}
  func req_schema resp_schema.
Arguments _validate_async {world} req_get_media resp_media jsonschema_validate {args R}
  func req_schema resp_schema.
Arguments validate {world} req_media req_get_media resp_media jsonschema_validate {args R}
  req_schema resp_schema func.

Arguments media_of {world} req_media req_get_media {args R} func.
Arguments request_world {world} req_media req_get_media {args R} req_schema func w.
Arguments request_accepted {world} req_media req_get_media jsonschema_validate {args R}
  req_schema func w.
Arguments response_accepted {world} resp_media jsonschema_validate resp_schema w.
Arguments request_run {world} req_media req_get_media jsonschema_validate {args R}
  req_schema func w.
Arguments response_run {world} resp_media jsonschema_validate resp_schema w.
Arguments exchange {world} req_media req_get_media resp_media jsonschema_validate {args R}
  req_schema resp_schema func a w.

(** ** A fragment of [jsonschema]

    The package is a dependency, not part of Falcon, and only a fragment of
    it is written out here: schemas that are [True], [False] or a [dict]
    using the keywords [type], [required] and [format], the last with the
    formats [email] and [idn-email], on values whose strings are ASCII; a
    schema that is a number or [None] makes the package fail with a
    [TypeError] before anything is validated.
    Within the fragment a keyword reports its errors as the package words
    them, from Python's [repr] of the offending value.  [modelled] decides
    whether a call lies in the fragment.  It leaves out every call on which
    more than one error would compete (the package then chooses among them
    by rules that changed between its versions), and every format whose
    checker is not written out here ([date], [ipv4], [regex], ...).  Outside
    the fragment [validate] gives no verdict: it answers with the marker
    [NotModelled], which stands for no behaviour of the package.  Numbers
    are integers. *)
Module Jsonschema.

Fixpoint lookup {A} (key : string) (members : list (string * A)) : option A :=
  match members with
  | [] => None
  | (k, v) :: rest => if k =? key then Some v else lookup key rest
  end.

Fixpoint contains_char (c : ascii) (s : string) : bool :=
  match s with
  | EmptyString => false
  | String c' rest => Ascii.eqb c c' || contains_char c rest
  end.

Fixpoint unique (l : list string) : bool :=
  match l with
  | [] => true
  | x :: rest => negb (existsb (String.eqb x) rest) && unique rest
  end.

(** *** Python's [repr] *)

Definition apostrophe : ascii := "'"%char.
Definition double_quote : ascii := ascii_of_nat 34.
Definition backslash : ascii := "\"%char.

Definition hex_digit (n : nat) : ascii :=
  match get n "0123456789abcdef" with
  | Some c => c
  | None => "0"%char
  end.

(** One character of a string inside the quotes [quote]. *)
Definition repr_char (quote c : ascii) : string :=
  let n := nat_of_ascii c in
  if Ascii.eqb c backslash || Ascii.eqb c quote
  then String backslash (String c EmptyString)
  else if Nat.eqb n 9 then "\t"
  else if Nat.eqb n 10 then "\n"
  else if Nat.eqb n 13 then "\r"
  else if Nat.ltb n 32 || Nat.eqb n 127
  then String backslash
              (String "x" (String (hex_digit (n / 16))
                                  (String (hex_digit (n mod 16)) EmptyString)))
  else String c EmptyString.

Fixpoint repr_chars (quote : ascii) (s : string) : string :=
  match s with
  | EmptyString => EmptyString
  | String c rest => repr_char quote c ++ repr_chars quote rest
  end.

(** [repr] of a [str]: single quotes, unless the text has an apostrophe and
    no double quote. *)
Definition repr_str (s : string) : string :=
  let quote :=
    if contains_char apostrophe s && negb (contains_char double_quote s)
    then double_quote else apostrophe in
  String quote (repr_chars quote s ++ String quote EmptyString).

Fixpoint repr (j : json) : string :=
  match j with
  | JNull => "None"
  | JBool true => "True"
  | JBool false => "False"
  | JNum n => NilZero.string_of_int (Z.to_int n)
  | JStr s => repr_str s
  | JArr items => "[" ++ String.concat ", " (map repr items) ++ "]"
  | JObj members =>
      "{" ++ String.concat ", "
               (map (fun kv => repr_str (fst kv) ++ ": " ++ repr (snd kv)) members)
          ++ "}"
  end.

(** *** Types and formats *)

Definition simple_types : list string :=
  ["array"; "boolean"; "integer"; "null"; "number"; "object"; "string"].

Definition is_simple_type (j : json) : bool :=
  match j with
  | JStr t => existsb (String.eqb t) simple_types
  | _ => false
  end.

Definition text_of (j : json) : string :=
  match j with
  | JStr s => s
  | _ => EmptyString
  end.

(** [validator.is_type(instance, type)]; a Python [bool] is not a number. *)
Definition is_type (instance : json) (type : string) : bool :=
  match instance with
  | JNull => type =? "null"
  | JBool _ => type =? "boolean"
  | JNum _ => (type =? "integer") || (type =? "number")
  | JStr _ => type =? "string"
  | JArr _ => type =? "array"
  | JObj _ => type =? "object"
  end.

(** The checker registered for [email] and [idn-email]: a [str] has to
    contain an [@], other values are not its business. *)
Definition is_email (instance : json) : bool :=
  match instance with
  | JStr s => contains_char "@"%char s
  | _ => true
  end.

(** The checkers written out here; [FormatChecker()] registers more. *)
Definition checkers : list (string * (json -> bool)) :=
  [("email", is_email); ("idn-email", is_email)].

(** [format_checker.conforms(instance, format)], for a format among
    [checkers]: a format the checker was not created for is not checked. *)
Definition conforms (fc : FormatChecker) (instance : json) (format : string) : bool :=
  let '(MkFormatChecker formats) := fc in
  let registered :=
    match formats with
    | None => true
    | Some names => existsb (String.eqb format) names
    end in
  if registered
  then match lookup format checkers with
       | Some check => check instance
       | None => true
       end
  else true.

(** *** The schema against the metaschema *)

(** [cls.check_schema(schema)], keyword by keyword: the errors the
    metaschema finds in one keyword's value. *)
Definition check_keyword (keyword : string) (value : json) : list string :=
  if keyword =? "type" then
    match value with
    | JStr _ =>
        if is_simple_type value then []
        else [repr value ++ " is not valid under any of the given schemas"]
    | JArr types =>
        if forallb is_simple_type types
           && negb (Nat.eqb (length types) 0)
           && unique (map text_of types)
        then []
        else [repr value ++ " is not valid under any of the given schemas"]
    | _ => [repr value ++ " is not valid under any of the given schemas"]
    end
  else if keyword =? "required" then
    match value with
    | JArr names =>
        map (fun bad => repr bad ++ " is not of type 'string'")
            (filter (fun n => match n with JStr _ => false | _ => true end) names)
        ++ (if unique (map repr names) then []
            else [repr value ++ " has non-unique elements"])
    | _ => [repr value ++ " is not of type 'array'"]
    end
  else if keyword =? "format" then
    match value with
    | JStr _ => []
    | _ => [repr value ++ " is not of type 'string'"]
    end
  else [].

Definition check_schema (members : list (string * json)) : list string :=
  flat_map (fun kv => check_keyword (fst kv) (snd kv)) members.

(** *** The instance against the schema *)

(** The errors one keyword yields on an instance. *)
Definition keyword_errors (fc : option FormatChecker) (instance : json)
           (keyword : string) (value : json) : list string :=
  if keyword =? "type" then
    let types := match value with JArr types => types | _ => [value] end in
    if existsb (fun t => match t with JStr t => is_type instance t | _ => false end) types
    then []
    else [repr instance ++ " is not of type " ++ String.concat ", " (map repr types)]
  else if keyword =? "required" then
    match instance, value with
    | JObj members, JArr names =>
        flat_map (fun n =>
                    match n with
                    | JStr property =>
                        match lookup property members with
                        | Some _ => []
                        | None => [repr_str property ++ " is a required property"]
                        end
                    | _ => []
                    end) names
    | _, _ => []
    end
  else if keyword =? "format" then
    match fc, value with
    | Some checker, JStr format =>
        if conforms checker instance format then []
        else [repr instance ++ " is not a " ++ repr_str format]
    | _, _ => []
    end
  else [].

Definition iter_errors (fc : option FormatChecker) (instance : json)
           (members : list (string * json)) : list string :=
  flat_map (fun kv => keyword_errors fc instance (fst kv) (snd kv)) members.

(** *** The fragment *)

Fixpoint ascii_text (s : string) : bool :=
  match s with
  | EmptyString => true
  | String c rest => Nat.ltb (nat_of_ascii c) 128 && ascii_text rest
  end.

(** A value as Python holds it and as [repr] above prints it: ASCII text, no
    key twice in a [dict]. *)
Fixpoint plain (j : json) : bool :=
  match j with
  | JStr s => ascii_text s
  | JArr items => forallb plain items
  | JObj members =>
      forallb (fun kv => ascii_text (fst kv) && plain (snd kv)) members
      && unique (map fst members)
  | _ => true
  end.

Definition at_most_one {A} (l : list A) : bool := Nat.leb (length l) 1.

(** The call [validate(instance, schema, format_checker=fc)] lies in the
    fragment. *)
Definition modelled (instance schema : json) (fc : option FormatChecker) : bool :=
  plain instance && plain schema &&
  match schema with
  | JBool _ => true
  | JObj members =>
      forallb (fun kv =>
                 existsb (String.eqb (fst kv)) ["type"; "required"; "format"]
                 && (negb (fst kv =? "format")
                     || match snd kv with
                        | JStr format => existsb (String.eqb format) (map fst checkers)
                        | _ => true
                        end))
              members
      && at_most_one (check_schema members)
      && at_most_one (iter_errors fc instance members)
  | JNull | JNum _ => true
  | _ => false
  end.

(** [jsonschema.validate(instance, schema, format_checker=fc)]. *)
Definition validate (instance schema : json) (fc : option FormatChecker) : validation :=
  if modelled instance schema fc then
    match schema with
    | JBool false => Invalid ("False schema does not allow " ++ repr instance)
    | JObj members =>
        match check_schema members with
        | message :: _ => SchemaInvalid message
        | [] =>
            match iter_errors fc instance members with
            | [] => Valid
            | message :: _ => Invalid message
            end
        end
    | JNull | JNum _ => Crashed "TypeError"
    | _ => Valid
    end
  else Crashed "NotModelled".

End Jsonschema.

(** ** A small framework to run the wrappers in *)
Module Demo.

(** The request holds its media (or the error that reading it raises) and
    counts how often it was read; the response holds its media; [handled]
    counts the responder's runs. *)
Record world : Type := MkWorld {
  request : outcome json;
  reads : nat;
  response : json;
  handled : nat
}.

Definition req_media (w : world) : outcome json * world :=
  (request w, MkWorld (request w) (S (reads w)) (response w) (handled w)).

Definition req_get_media (w : world) : outcome json * world := req_media w.

Definition resp_media (w : world) : json := response w.

(** A responder that sets [resp.media] and returns a status text. *)
Definition on_post (reply : json) : responder world unit string :=
  fun _ w =>
    (Returned "201 Created",
     MkWorld (request w) (reads w) reply (S (handled w))).

(** A responder that fails. *)
Definition on_error (e : exn) : responder world unit string :=
  fun _ w =>
    (Raised e, MkWorld (request w) (reads w) (response w) (S (handled w))).

Definition incoming (payload : json) : world :=
  MkWorld (Returned payload) 0 JNull 0.

(** The decorator over this framework and the [jsonschema] fragment. *)
Definition validate := validate req_media req_get_media resp_media Jsonschema.validate
                                (args := unit) (R := string).

(** The schema of the specification's example, and schemas for the other
    cases. *)
Definition name_schema : json :=
  JObj [("type", JStr "object"); ("required", JArr [JStr "name"])].


Definition malformed_schema : json :=
  JObj [("type", JNum 12)].

End Demo.

(** ** The decorated responder as a callable

    [validate(req_schema, resp_schema)(func)] is itself a callable that can
    be routed to, or decorated again.  [_validate] returns a [def wrapper],
    [_validate_async] an [async def wrapper], so the result is a coroutine
    function exactly when [func] is one.  Seen from its caller, a wrapper is
    a responder: it ends by returning or raising and leaves a world; the
    events above are this file's record of what it did, not something the
    caller receives. *)
Section Stacking.

Variable world : Type.
Variable req_media : world -> outcome json * world.
Variable req_get_media : world -> outcome json * world.
Variable resp_media : world -> json.
Variable jsonschema_validate : json -> json -> option FormatChecker -> validation.
Variable args : Type.
Variable R : Type.

Definition as_responder (wrapper : args -> M world R) : responder world args R :=
  fun a w => let r := wrapper a w in (result r, final r).

(** [decorator(func)] of [validate(req_schema, resp_schema)]. *)
Definition decorate (req_schema resp_schema : option json)
           (func : callable world args R) : callable world args R :=
  if iscoroutinefunction func
  then CoroutineFunction
         (as_responder (_validate_async req_get_media resp_media jsonschema_validate
                                        (body func) req_schema resp_schema))
  else Function
         (as_responder (_validate req_media resp_media jsonschema_validate
                                  (body func) req_schema resp_schema)).

End Stacking.

Arguments as_responder {world args R} wrapper.
Arguments decorate {world} req_media req_get_media resp_media jsonschema_validate {args R}
  req_schema resp_schema func.

(** How often a kind of step occurs in a run. *)
Definition occurrences (P : event -> bool) (t : list event) : nat :=
  length (filter P t).

Definition is_media_read (e : event) : bool :=
  match e with
  | EvMedia _ => true
  | _ => false
  end.

Definition is_request_validation (e : event) : bool :=
  match e with
  | EvValidate RequestSite _ _ _ _ => true
  | _ => false
  end.

Definition is_call (e : event) : bool :=
  match e with
  | EvCall => true
  | _ => false
  end.

(** ** Objects shared by reference

    In Python the payloads and the schemas are objects.  [req.media] and
    [resp.media] hand out a reference to the payload, the decorator's
    closure holds references to the two schema [dict]s, and
    [jsonschema.validate] is passed references: whoever holds one can write
    to the object behind it.  To say that nothing is written, the wrappers
    are read here once more with that in view: the world holds the objects,
    [value w o] is what object [o] holds in world [w], and the validator is
    a step of the world like the responder is, free to write to what it is
    handed.  The text of the wrappers is the same as above; the events
    record the values the objects held when they were passed. *)
Module Shared.

Section Objects.

Variable world : Type.
Variable obj : Type.
Variable value : world -> obj -> json.
Variable req_media : world -> outcome obj * world.
Variable req_get_media : world -> outcome obj * world.
Variable resp_media : world -> obj.
Variable jsonschema_validate :
  obj -> obj -> option FormatChecker -> world -> validation * world.
Variable args : Type.
Variable R : Type.

Definition seen (w : world) (o : outcome obj) : outcome json :=
  match o with
  | Returned p => Returned (value w p)
  | Raised e => Raised e
  end.

Definition get_req_media : M world obj :=
  fun w => let (o, w') := req_media w in MkRun o w' [EvMedia (seen w' o)].

Definition await_req_get_media : M world obj :=
  fun w => let (o, w') := req_get_media w in MkRun o w' [EvMedia (seen w' o)].

Definition get_resp_media : M world obj :=
  fun w => MkRun (Returned (resp_media w)) w [].

Definition call_validate (s : site) (instance schema : obj)
           (format_checker : option FormatChecker) : M world unit :=
  fun w =>
    let (v, w') := jsonschema_validate instance schema format_checker w in
    MkRun (validation_outcome v) w'
          [EvValidate s (value w instance) (value w schema) format_checker v].

(** [_validate(func, req_schema, resp_schema)]: the [wrapper] it returns. *)
Definition _validate (func : responder world args R) (req_schema resp_schema : option obj)
  : args -> M world R :=
  fun a =>
    match req_schema with
    | Some schema =>
        try_except
          (m <- get_req_media ;;
           call_validate RequestSite m schema (Some FormatChecker_new))
          (except_ValidationError (fun message =>
             raise (HTTPBadRequest "Request data failed validation"
                                   (Some message))))
    | None => ret tt
    end ;;;
    result <- call_func func a ;;
    match resp_schema with
    | Some schema =>
        try_except
          (m <- get_resp_media ;;
           call_validate ResponseSite m schema (Some FormatChecker_new))
          (except_ValidationError (fun _ =>
             raise (HTTPInternalServerError "Response data failed validation"
                                            None)))
    | None => ret tt
    end ;;;
    ret result.

(** [_validate_async(func, req_schema, resp_schema)]: the [wrapper] it
    returns. *)
Definition _validate_async (func : responder world args R)
           (req_schema resp_schema : option obj) : args -> M world R :=
  fun a =>
    match req_schema with
    | Some schema =>
        m <- await_req_get_media ;;
        try_except
          (call_validate RequestSite m schema (Some FormatChecker_new))
          (except_ValidationError (fun message =>
             raise (HTTPBadRequest "Request data failed validation"
                                   (Some message))))
    | None => ret tt
    end ;;;
    result <- call_func func a ;;
    match resp_schema with
    | Some schema =>
        try_except
          (m <- get_resp_media ;;
           call_validate ResponseSite m schema (Some FormatChecker_new))
          (except_ValidationError (fun _ =>
             raise (HTTPInternalServerError "Response data failed validation"
                                            None)))
    | None => ret tt
    end ;;;
    ret result.

(** [validate(req_schema, resp_schema)(func)]. *)
Definition validate (req_schema resp_schema : option obj)
           (func : callable world args R) : args -> M world R :=
  if iscoroutinefunction func
  then _validate_async (body func) req_schema resp_schema
  else _validate (body func) req_schema resp_schema.

(** *** The worlds a call goes through *)

Definition media_of (func : callable world args R) : world -> outcome obj * world :=
  if iscoroutinefunction func then req_get_media else req_media.

(** After the request media has been read, if it is read at all. *)
Definition read_world (req_schema : option obj) (func : callable world args R)
           (w : world) : world :=
  match req_schema with
  | Some _ => snd (media_of func w)
  | None => w
  end.

(** After the request stage: where the responder starts, if it is entered. *)
Definition entry_world (req_schema : option obj) (func : callable world args R)
           (w : world) : world :=
  match req_schema with
  | Some schema =>
      let (o, w1) := media_of func w in
      match o with
      | Returned m => snd (jsonschema_validate m schema (Some FormatChecker_new) w1)
      | Raised _ => w1
      end
  | None => w
  end.

(** After the response stage, from the world [w] the responder has left. *)
Definition exit_world (resp_schema : option obj) (w : world) : world :=
  match resp_schema with
  | Some schema =>
      snd (jsonschema_validate (resp_media w) schema (Some FormatChecker_new) w)
  | None => w
  end.

(** *** The run, stage by stage (what the wrappers are proved to compute) *)

Definition request_run (req_schema : option obj) (func : callable world args R)
           (w : world) : run world unit :=
  match req_schema with
  | Some schema =>
      let (o, w1) := media_of func w in
      match o with
      | Returned m =>
          let (v, w2) := jsonschema_validate m schema (Some FormatChecker_new) w1 in
          MkRun (match v with
                 | Invalid message =>
                     Raised (HTTPBadRequest "Request data failed validation"
                                            (Some message))
                 | _ => validation_outcome v
                 end)
                w2
                [EvMedia (seen w1 o);
                 EvValidate RequestSite (value w1 m) (value w1 schema)
                            (Some FormatChecker_new) v]
      | Raised e =>
          MkRun (Raised (match e, iscoroutinefunction func with
                         | ValidationError message, false =>
                             HTTPBadRequest "Request data failed validation"
                                            (Some message)
                         | _, _ => e
                         end))
                w1 [EvMedia (seen w1 o)]
      end
  | None => MkRun (Returned tt) w []
  end.

Definition response_run (resp_schema : option obj) (w : world) : run world unit :=
  match resp_schema with
  | Some schema =>
      let (v, w') :=
        jsonschema_validate (resp_media w) schema (Some FormatChecker_new) w in
      MkRun (match v with
             | Invalid _ =>
                 Raised (HTTPInternalServerError "Response data failed validation"
                                                 None)
             | _ => validation_outcome v
             end)
            w'
            [EvValidate ResponseSite (value w (resp_media w)) (value w schema)
                        (Some FormatChecker_new) v]
  | None => MkRun (Returned tt) w []
  end.

Definition exchange (req_schema resp_schema : option obj)
           (func : callable world args R) (a : args) (w : world) : run world R :=
  let q := request_run req_schema func w in
  match result q with
  | Raised e => MkRun (Raised e) (final q) (events q)
  | Returned _ =>
      let (o, w2) := body func a (final q) in
      match o with
      | Raised e => MkRun (Raised e) w2 (events q ++ [EvCall; EvRaise e])
      | Returned x =>
          let p := response_run resp_schema w2 in
          MkRun (match result p with
                 | Returned _ => Returned x
                 | Raised e => Raised e
                 end)
                (final p) (events q ++ [EvCall; EvReturn] ++ events p)
      end
  end.

End Objects.

Arguments seen {world obj} value w o.
Arguments get_req_media {world obj} value req_media.
Arguments await_req_get_media {world obj} value req_get_media.
Arguments get_resp_media {world obj} resp_media.
Arguments call_validate {world obj} value jsonschema_validate s instance schema
  format_checker.
Arguments _validate {world obj} value req_media resp_media jsonschema_validate {args R}
  func req_schema resp_schema.
Arguments _validate_async {world obj} value req_get_media resp_media jsonschema_validate
  {args R} func req_schema resp_schema.
Arguments validate {world obj} value req_media req_get_media resp_media
  jsonschema_validate {args R} req_schema resp_schema func.
Arguments media_of {world obj} req_media req_get_media {args R} func.
Arguments read_world {world obj} req_media req_get_media {args R} req_schema func w.
Arguments entry_world {world obj} req_media req_get_media jsonschema_validate {args R}
  req_schema func w.
Arguments exit_world {world obj} resp_media jsonschema_validate resp_schema w.
Arguments request_run {world obj} value req_media req_get_media jsonschema_validate
  {args R} req_schema func w.
Arguments response_run {world obj} value resp_media jsonschema_validate resp_schema w.
Arguments exchange {world obj} value req_media req_get_media resp_media
  jsonschema_validate {args R} req_schema resp_schema func a w.

(** *** A store of objects to run the wrappers in

    Objects are numbered; the store lists what each one holds.  The request
    knows its media object (or the error that reading it raises), the
    response knows its media object. *)
Record store : Type := MkStore {
  objects : list json;
  request : outcome nat;
  response : nat
}.

Definition value (w : store) (o : nat) : json := nth o (objects w) JNull.

Definition req_media (w : store) : outcome nat * store := (request w, w).

Definition resp_media (w : store) : nat := response w.

(** The package's validator: it looks at the two objects and writes to
    neither. *)
Definition jsonschema_validate (instance schema : nat) (fc : option FormatChecker)
           (w : store) : validation * store :=
  (Jsonschema.validate (value w instance) (value w schema) fc, w).

(** A validator that is not the package's: it fills in a [name] where one is
    missing, writing to the object it was handed. *)
Fixpoint write (o : nat) (j : json) (l : list json) : list json :=
  match l, o with
  | [], _ => []
  | _ :: rest, O => j :: rest
  | x :: rest, S o' => x :: write o' j rest
  end.

Definition filling_validate (instance schema : nat) (fc : option FormatChecker)
           (w : store) : validation * store :=
  match value w instance with
  | JObj members =>
      match Jsonschema.lookup "name" members with
      | Some _ => jsonschema_validate instance schema fc w
      | None =>
          let filled := JObj (members ++ [("name", JStr "anonymous")]) in
          (Jsonschema.validate filled (value w schema) fc,
           MkStore (write instance filled (objects w)) (request w) (response w))
      end
  | _ => jsonschema_validate instance schema fc w
  end.

(** A responder that creates the response media and returns a status. *)
Definition on_post (reply : json) : responder store unit string :=
  fun _ w =>
    (Returned "201 Created",
     MkStore (objects w ++ [reply]) (request w) (length (objects w))).

(** Object 0 is the schema of the specification's example, object 1 the
    request payload. *)
Definition incoming (payload : json) : store :=
  MkStore [JObj [("type", JStr "object"); ("required", JArr [JStr "name"])]; payload]
          (Returned 1) 0.

End Shared.

(** * Properties *)

(** One case split on the next thing a run depends on. *)
Ltac split_run :=
  match goal with
  | |- context [match ?x with _ => _ end] => destruct x eqn:?
  | H : context [match ?x with _ => _ end] |- _ => destruct x eqn:?
  | |- context [let (_, _) := ?x in _] => destruct x eqn:?
  | H : context [let (_, _) := ?x in _] |- _ => destruct x eqn:?
  end.

Ltac tidy :=
  cbn [result final events fst snd app raised_by validation_outcome
       iscoroutinefunction body
       is_request_step is_response_validation
       is_responder_step] in *;
  subst; try discriminate; try congruence.

Ltac run_cases := tidy; repeat (split_run; tidy).

(** A position in a short, explicit list of events. *)
Ltac find_position :=
  repeat match goal with
         | H : nth_error _ ?i = Some _ |- _ =>
             is_var i; destruct i; cbn [nth_error] in H; try discriminate
         end.

(** Membership in a short, explicit list of events. *)
Ltac in_cases :=
  repeat match goal with
         | H : In _ (_ :: _) |- _ => destruct H as [H | H]; try discriminate
         | H : In _ [] |- _ => destruct H
         | H : @eq event _ _ |- _ => inversion H; clear H; subst
         | H : @eq (option event) _ _ |- _ => inversion H; clear H; subst
         end.

(** Two runs that ended the same way. *)
Ltac same_outcome :=
  repeat match goal with
         | H : Raised _ = Raised _ |- _ => inversion H; clear H; subst
         | H : Returned _ = Returned _ |- _ => inversion H; clear H; subst
         end.

Section DecoratorProperties.

Variable world : Type.
Variable req_media : world -> outcome json * world.
Variable req_get_media : world -> outcome json * world.
Variable resp_media : world -> json.
Variable jsonschema_validate : json -> json -> option FormatChecker -> validation.
Variable args : Type.
Variable R : Type.

Local Notation wrapped :=
  (validate req_media req_get_media resp_media jsonschema_validate (args := args) (R := R)).
Local Notation media := (media_of req_media req_get_media (args := args) (R := R)).
Local Notation start := (request_world req_media req_get_media (args := args) (R := R)).
Local Notation accepted_request :=
  (request_accepted req_media req_get_media jsonschema_validate (args := args) (R := R)).
Local Notation accepted_response := (response_accepted resp_media jsonschema_validate).
Local Notation request_stage :=
  (request_run req_media req_get_media jsonschema_validate (args := args) (R := R)).
Local Notation response_stage := (response_run resp_media jsonschema_validate).
Local Notation staged :=
  (exchange req_media req_get_media resp_media jsonschema_validate (args := args) (R := R)).

(** ** The wrappers, stage by stage *)

Lemma bind_run {A B} (m : M world A) (k : A -> M world B) (w : world) :
  bind m k w =
  match result (m w) with
  | Returned x =>
      MkRun (result (k x (final (m w)))) (final (k x (final (m w))))
            (events (m w) ++ events (k x (final (m w))))
  | Raised e => MkRun (Raised e) (final (m w)) (events (m w))
  end.
Proof. reflexivity. Qed.

(** The request stage of [_validate]: [req.media] is read inside the [try]. *)
Lemma sync_request_stage (f : responder world args R) (req_schema : option json)
      (w : world) :
  match req_schema with
  | Some schema =>
      try_except
        (m <- get_req_media req_media ;;
         call_validate jsonschema_validate RequestSite m schema (Some FormatChecker_new))
        (except_ValidationError (fun message =>
           raise (HTTPBadRequest "Request data failed validation" (Some message))))
  | None => ret tt
  end w
  = request_stage req_schema (Function f) w.
Proof.
  destruct req_schema as [schema |]; [| reflexivity].
  unfold request_run, media_of, try_except, bind, get_req_media, call_validate.
  cbn [iscoroutinefunction].
  destruct (req_media w) as [[m | e] w1]; cbn [result final events app].
  - destruct (jsonschema_validate m schema (Some FormatChecker_new)); reflexivity.
  - destruct e; reflexivity.
Qed.

(** The request stage of [_validate_async]: the media is awaited first. *)
Lemma async_request_stage (f : responder world args R) (req_schema : option json)
      (w : world) :
  match req_schema with
  | Some schema =>
      m <- await_req_get_media req_get_media ;;
      try_except
        (call_validate jsonschema_validate RequestSite m schema (Some FormatChecker_new))
        (except_ValidationError (fun message =>
           raise (HTTPBadRequest "Request data failed validation" (Some message))))
  | None => ret tt
  end w
  = request_stage req_schema (CoroutineFunction f) w.
Proof.
  destruct req_schema as [schema |]; [| reflexivity].
  unfold request_run, media_of, try_except, bind, await_req_get_media, call_validate.
  cbn [iscoroutinefunction].
  destruct (req_get_media w) as [[m | e] w1]; cbn [result final events app].
  - destruct (jsonschema_validate m schema (Some FormatChecker_new)); reflexivity.
  - destruct e; reflexivity.
Qed.

(** The response stage, the same in both wrappers. *)
Lemma response_stage_run (resp_schema : option json) (w : world) :
  match resp_schema with
  | Some schema =>
      try_except
        (m <- get_resp_media resp_media ;;
         call_validate jsonschema_validate ResponseSite m schema (Some FormatChecker_new))
        (except_ValidationError (fun _ =>
           raise (HTTPInternalServerError "Response data failed validation" None)))
  | None => ret tt
  end w
  = response_stage resp_schema w.
Proof.
  destruct resp_schema as [schema |]; [| reflexivity].
  unfold response_run, try_except, bind, get_resp_media, call_validate.
  cbn [result final events app].
  destruct (jsonschema_validate (resp_media w) schema (Some FormatChecker_new));
    reflexivity.
Qed.

(** From the request stage on, both wrappers go the same way. *)
Lemma after_request_stage (f : responder world args R) (resp_schema : option json)
      (a : args) (q : run world unit) (func : callable world args R) :
  body func = f ->
  match result q with
  | Returned _ =>
      let r :=
        (result <- call_func f a ;;
         match resp_schema with
         | Some schema =>
             try_except
               (m <- get_resp_media resp_media ;;
                call_validate jsonschema_validate ResponseSite m schema
                              (Some FormatChecker_new))
               (except_ValidationError (fun _ =>
                  raise (HTTPInternalServerError "Response data failed validation"
                                                 None)))
         | None => ret tt
         end ;;;
         ret result) (final q) in
      MkRun (result r) (final r) (events q ++ events r)
  | Raised e => MkRun (Raised e) (final q) (events q)
  end
  = match result q with
    | Raised e => MkRun (Raised e) (final q) (events q)
    | Returned _ =>
        let (o, w2) := body func a (final q) in
        match o with
        | Raised e => MkRun (Raised e) w2 (events q ++ [EvCall; EvRaise e])
        | Returned x =>
            let p := response_stage resp_schema w2 in
            MkRun (match result p with
                   | Returned _ => Returned x
                   | Raised e => Raised e
                   end)
                  (final p) (events q ++ [EvCall; EvReturn] ++ events p)
        end
    end.
Proof.
  intros <-. destruct q as [[u | e] w1 ev]; cbn [result final events]; [| reflexivity].
  cbv zeta. rewrite bind_run. unfold call_func.
  destruct (body func a w1) as [[x | e] w2]; cbn [result final events]; [| reflexivity].
  rewrite bind_run, response_stage_run.
  destruct (response_stage resp_schema w2) as [[u' | e'] w3 ev'];
    cbn [result final events ret app]; [rewrite app_nil_r |]; reflexivity.
Qed.

(** What a wrapped responder computes. *)
Lemma validate_exchange (func : callable world args R)
      (req_schema resp_schema : option json) (a : args) (w : world) :
  wrapped req_schema resp_schema func a w = staged req_schema resp_schema func a w.
Proof.
  unfold exchange; cbv zeta.
  destruct func as [f | f]; unfold validate, _validate, _validate_async;
    cbn [iscoroutinefunction]; rewrite bind_run.
  - rewrite (sync_request_stage f).
    apply (after_request_stage f resp_schema a _ (Function f)); reflexivity.
  - rewrite (async_request_stage f).
    apply (after_request_stage f resp_schema a _ (CoroutineFunction f)); reflexivity.
Qed.

(** Reading a property off the stages. *)
Ltac by_stages :=
  rewrite ?validate_exchange in *;
  unfold exchange, request_run, response_run, request_world,
    request_accepted, response_accepted in *;
  cbv zeta in *.

(** ** The claims of the specification *)

(** C1.  A request whose deserialized body violates the request schema: the
    wrapper (synchronous or asynchronous) raises [HTTPBadRequest] whose
    description is the validator's message, the responder is never entered,
    and the world is the one the media retrieval left. *)
Theorem request_violation_is_bad_request
        (func : callable world args R) (schema : json) (resp_schema : option json)
        (a : args) (w : world) (m : json) (message : string) :
  fst (media func w) = Returned m ->
  jsonschema_validate m schema (Some FormatChecker_new) = Invalid message ->
  let r := wrapped (Some schema) resp_schema func a w in
  result r = Raised (HTTPBadRequest "Request data failed validation" (Some message))
  /\ final r = snd (media func w)
  /\ (forall e, In e (events r) -> is_responder_step e = false).
Proof.
  intros Hmedia Hinvalid r; subst r. rewrite validate_exchange.
  unfold exchange, request_run; cbv zeta.
  destruct (media func w) as [o w1]; cbn [fst snd] in *; subst o.
  rewrite Hinvalid; cbn [result final events].
  repeat split. intros e [<- | [<- | []]]; reflexivity.
Qed.

(** C2.  The request stage passes, the responder completes, and the response
    body it left violates the response schema: the wrapper raises
    [HTTPInternalServerError] with the fixed title and no description,
    whatever the validator's message was. *)
Theorem response_violation_is_internal_error
        (func : callable world args R) (req_schema : option json) (schema : json)
        (a : args) (w w' : world) (x : R) (message : string) :
  accepted_request req_schema func w ->
  body func a (start req_schema func w) = (Returned x, w') ->
  jsonschema_validate (resp_media w') schema (Some FormatChecker_new) = Invalid message ->
  let r := wrapped req_schema (Some schema) func a w in
  result r = Raised (HTTPInternalServerError "Response data failed validation" None)
  /\ final r = w'
  /\ In EvReturn (events r).
Proof.
  intros Hreq Hbody Hresp r; subst r. by_stages.
  destruct req_schema as [rs |].
  - destruct Hreq as (m & Hm & Hvalid).
    destruct (media_of req_media req_get_media func w) as [o w1];
      cbn [fst snd] in *; subst o.
    rewrite Hvalid; cbn [validation_outcome raised_by result final events].
    rewrite Hbody, Hresp; cbn [result final events].
    repeat split. apply in_or_app; right; cbn; auto.
  - cbn [result final events]. rewrite Hbody, Hresp; cbn [result final events].
    repeat split. cbn; auto.
Qed.

(** C3.  The request body satisfies the request schema (or there is none),
    the responder returns [x], and the response body satisfies the response
    schema (or there is none): the wrapper enters the responder and returns
    [x], in the world the responder left. *)
Theorem valid_exchange_passes_through
        (func : callable world args R) (req_schema resp_schema : option json)
        (a : args) (w w' : world) (x : R) :
  accepted_request req_schema func w ->
  body func a (start req_schema func w) = (Returned x, w') ->
  accepted_response resp_schema w' ->
  let r := wrapped req_schema resp_schema func a w in
  result r = Returned x /\ final r = w'
  /\ In EvCall (events r) /\ In EvReturn (events r).
Proof.
  intros Hreq Hbody Hresp r; subst r. by_stages.
  assert (Hpost : forall ev,
             let p := response_stage resp_schema w' in
             let r := MkRun (match result p with
                             | Returned _ => Returned x
                             | Raised e => Raised e
                             end) (final p) (ev ++ [EvCall; EvReturn] ++ events p) in
             result r = Returned x /\ final r = w'
             /\ In EvCall (events r) /\ In EvReturn (events r)).
  { intros ev; unfold response_run; cbv zeta.
    destruct resp_schema as [ps |]; [rewrite Hresp |];
      cbn [validation_outcome raised_by result final events];
      (repeat split; apply in_or_app; right; cbn; auto). }
  unfold response_run in Hpost; cbv zeta in Hpost.
  destruct req_schema as [rs |].
  - destruct Hreq as (m & Hm & Hvalid).
    destruct (media_of req_media req_get_media func w) as [o w1];
      cbn [fst snd] in *; subst o.
    rewrite Hvalid; cbn [validation_outcome raised_by result final events].
    rewrite Hbody. apply Hpost.
  - cbn [result final events]. rewrite Hbody. apply Hpost.
Qed.

(** C4.  Given the same schemas, the same responder body and the same
    request media (the property and the coroutine agree in the world at
    hand, and reading the media does not itself raise a
    [jsonschema.ValidationError]), [_validate_async] and [_validate] run
    identically: same result, same final world, same events in the same
    order. *)
Theorem sync_and_async_wrappers_agree
        (f : responder world args R) (req_schema resp_schema : option json)
        (a : args) (w : world) :
  req_get_media w = req_media w ->
  (forall message, fst (req_media w) <> Raised (ValidationError message)) ->
  _validate_async req_get_media resp_media jsonschema_validate f req_schema resp_schema a w
  = _validate req_media resp_media jsonschema_validate f req_schema resp_schema a w.
Proof.
  intros Hsame Hmedia.
  change (wrapped req_schema resp_schema (CoroutineFunction f) a w
          = wrapped req_schema resp_schema (Function f) a w).
  rewrite !validate_exchange. unfold exchange; cbv zeta.
  cbn [body].
  assert (Hstage : request_stage req_schema (CoroutineFunction f) w
                   = request_stage req_schema (Function f) w).
  { unfold request_run, media_of; cbn [iscoroutinefunction].
    destruct req_schema as [rs |]; [| reflexivity].
    rewrite Hsame. destruct (req_media w) as [[m | e] w1]; [reflexivity |].
    destruct e; try reflexivity. exfalso. apply (Hmedia message). reflexivity. }
  rewrite Hstage. reflexivity.
Qed.

(** C5.  In every run of a wrapped responder the steps on the request (media
    retrieval, request validation) come strictly before every step of the
    responder, and every step of the responder strictly before the response
    validation.  A response validation happens only once the responder has
    returned; with a request schema the responder is entered only after a
    request validation that succeeded; with a response schema a responder
    that returns is followed by a response validation. *)
Theorem validation_brackets_the_responder
        (func : callable world args R) (req_schema resp_schema : option json)
        (a : args) (w : world) :
  let t := events (wrapped req_schema resp_schema func a w) in
  precedes is_request_step is_responder_step t
  /\ precedes is_responder_step is_response_validation t
  /\ (forall e, In e t -> is_response_validation e = true -> In EvReturn t)
  /\ (forall schema, req_schema = Some schema -> In EvCall t ->
      exists m, In (EvValidate RequestSite m schema (Some FormatChecker_new) Valid) t)
  /\ (forall schema, resp_schema = Some schema -> In EvReturn t ->
      exists m v, In (EvValidate ResponseSite m schema (Some FormatChecker_new) v) t).
Proof.
  intro t; subst t. unfold precedes. by_stages.
  run_cases;
    (split; [| split; [| split; [| split]]];
     [ intros ? ? ? ? Hi Hj Hx Hy; find_position; in_cases; tidy; lia
     | intros ? ? ? ? Hi Hj Hx Hy; find_position; in_cases; tidy; lia
     | intros ? He Hv; in_cases; tidy; cbn; auto 10
     | intros ? Hs Hc; inversion Hs; subst; in_cases; tidy; eexists; cbn; eauto 10
     | intros ? Hs Hc; inversion Hs; subst; in_cases; tidy; do 2 eexists; cbn; eauto 10 ]).
Qed.

(** C6.  Both schemas are optional.  Without a request schema the run has no
    request step at all (the media is not read, nothing is validated), and
    an [HTTPBadRequest] can only be the responder's own.  Without a response
    schema the run has no response validation, once the responder is entered
    the run ends exactly as the responder does, and an
    [HTTPInternalServerError] can only come from the responder or from
    reading the request media. *)
Theorem absent_schema_is_not_validated
        (func : callable world args R) (req_schema resp_schema : option json)
        (a : args) (w : world) :
  (let r := wrapped None resp_schema func a w in
   (forall e, In e (events r) -> is_request_step e = false)
   /\ (forall title description,
          result r = Raised (HTTPBadRequest title description) ->
          fst (body func a w) = Raised (HTTPBadRequest title description)))
  /\
  (let r := wrapped req_schema None func a w in
   (forall e, In e (events r) -> is_response_validation e = false)
   /\ (In EvCall (events r) ->
       result r = fst (body func a (start req_schema func w))
       /\ final r = snd (body func a (start req_schema func w)))
   /\ (forall title description,
          result r = Raised (HTTPInternalServerError title description) ->
          In (EvRaise (HTTPInternalServerError title description)) (events r)
          \/ In (EvMedia (Raised (HTTPInternalServerError title description))) (events r))).
Proof.
  split; intro r; subst r; by_stages.
  - run_cases;
      (split;
       [ intros ? He; in_cases; reflexivity
       | intros ? ? Hr; tidy ]).
  - run_cases;
      (split; [| split];
       [ intros ? He; in_cases; reflexivity
       | intros Hc; in_cases; tidy;
         repeat match goal with
                | H : ?l = (_, _) |- context [?l] => rewrite H
                end;
         split; reflexivity
       | intros ? ? Hr; tidy; same_outcome; cbn; auto 10 ]).
Qed.

(** C9.  Only a [jsonschema.ValidationError] is converted.  An exception
    raised by the responder (of any class) ends the run unchanged; so does
    any exception other than [ValidationError] that a validation raises
    (for instance the [SchemaError] of a malformed schema), or that reading
    the request media raises. *)
Theorem only_ValidationError_is_converted
        (func : callable world args R) (req_schema resp_schema : option json)
        (a : args) (w : world) :
  let r := wrapped req_schema resp_schema func a w in
  (forall e, In (EvRaise e) (events r) -> result r = Raised e)
  /\ (forall s m schema fc v e,
         In (EvValidate s m schema fc v) (events r) ->
         raised_by v = Some e ->
         (forall message, e <> ValidationError message) ->
         result r = Raised e)
  /\ (forall e,
         In (EvMedia (Raised e)) (events r) ->
         (forall message, e <> ValidationError message) ->
         result r = Raised e).
Proof.
  intro r; subst r. by_stages.
  run_cases;
    (split; [| split];
     [ intros ? He; in_cases; reflexivity
     | intros ? ? ? ? ? ? He Hv Hne; in_cases; tidy;
       try reflexivity; exfalso; eapply Hne; reflexivity
     | intros ? He Hne; in_cases; tidy;
       try reflexivity; exfalso; eapply Hne; reflexivity ]).
Qed.


End DecoratorProperties.

(** ** The specification's examples, run *)

(** C7.  With [{"type": "object", "required": ["name"]}] as the request
    schema, the payload [{"name": "x"}] passes validation and the responder
    runs (the run ends as the responder does), while the payload [{}] makes
    the wrapper raise [HTTPBadRequest] whose description names the missing
    [name] property, without the responder being entered. *)
Theorem name_schema_example (func : callable Demo.world unit string) :
  let named := JObj [("name", JStr "x")] in
  let accepted := Demo.validate (Some Demo.name_schema) None func tt (Demo.incoming named) in
  let rejected := Demo.validate (Some Demo.name_schema) None func tt (Demo.incoming (JObj [])) in
  Jsonschema.validate named Demo.name_schema (Some FormatChecker_new) = Valid
  /\ In EvCall (events accepted)
  /\ result accepted = fst (body func tt (snd (Demo.req_media (Demo.incoming named))))
  /\ Jsonschema.validate (JObj []) Demo.name_schema (Some FormatChecker_new)
     = Invalid "'name' is a required property"
  /\ result rejected
     = Raised (HTTPBadRequest "Request data failed validation"
                              (Some "'name' is a required property"))
  /\ (forall e, In e (events rejected) -> is_responder_step e = false).
Proof.
  intros named accepted rejected; subst named accepted rejected.
  assert (Hok : Jsonschema.validate (JObj [("name", JStr "x")]) Demo.name_schema
                                    (Some FormatChecker_new) = Valid)
    by reflexivity.
  assert (Hko : Jsonschema.validate (JObj []) Demo.name_schema (Some FormatChecker_new)
                = Invalid "'name' is a required property")
    by reflexivity.
  split; [exact Hok |].
  unfold Demo.validate; rewrite !validate_exchange.
  unfold exchange, request_run, response_run, media_of; cbv zeta.
  destruct func as [f | f]; cbn [iscoroutinefunction body];
    unfold Demo.req_get_media, Demo.req_media, Demo.incoming;
    cbn [Demo.request Demo.reads Demo.response Demo.handled fst snd];
    rewrite Hok, Hko;
    cbn [validation_outcome raised_by result final events app];
    (destruct (f tt _) as [[x | e] w']; cbn [result final events app fst];
     (split; [cbn; auto | split; [reflexivity | split; [reflexivity | split;
       [reflexivity | intros ? He; in_cases; reflexivity]]]])).
Qed.




(** Where the two wrappers part: [_validate] reads [req.media] inside its
    [try] block, [_validate_async] awaits [req.get_media()] before it.  A
    [jsonschema.ValidationError] raised by the media retrieval itself is
    converted by the first and passed on by the second. *)
Remark media_ValidationError_separates_the_wrappers :
  let w := Demo.MkWorld (Raised (ValidationError "from the media handler")) 0 JNull 0 in
  result (Demo.validate (Some Demo.name_schema) None
                        (Function (Demo.on_post JNull)) tt w)
  = Raised (HTTPBadRequest "Request data failed validation"
                           (Some "from the media handler"))
  /\ result (Demo.validate (Some Demo.name_schema) None
                           (CoroutineFunction (Demo.on_post JNull)) tt w)
     = Raised (ValidationError "from the media handler").
Proof. split; reflexivity. Qed.

(** A malformed schema: the [SchemaError] of the validator reaches the
    caller as it is, from either wrapper, and the responder is not entered. *)
Example malformed_schema_raises_SchemaError :
  let sync := Demo.validate (Some Demo.malformed_schema) None
                            (Function (Demo.on_post JNull)) tt (Demo.incoming (JObj [])) in
  let async := Demo.validate (Some Demo.malformed_schema) None
                             (CoroutineFunction (Demo.on_post JNull)) tt
                             (Demo.incoming (JObj [])) in
  result sync = Raised (SchemaError "12 is not valid under any of the given schemas")
  /\ result async = result sync
  /\ Demo.handled (final sync) = 0.
Proof. repeat split. Qed.

(** A responder that raises, here a [jsonschema.ValidationError] of its own:
    the call is outside both [try] blocks, so the exception is not turned
    into an HTTP error, and the response is not validated. *)
Example responder_exception_propagates :
  let r := Demo.validate (Some Demo.name_schema) (Some Demo.name_schema)
                         (Function (Demo.on_error (ValidationError "inner"))) tt
                         (Demo.incoming (JObj [("name", JStr "x")])) in
  result r = Raised (ValidationError "inner")
  /\ events r
     = [EvMedia (Returned (JObj [("name", JStr "x")]));
        EvValidate RequestSite (JObj [("name", JStr "x")]) Demo.name_schema
                   (Some FormatChecker_new) Valid;
        EvCall; EvRaise (ValidationError "inner")].
Proof. split; reflexivity. Qed.

(** No schema at all: the run is the responder's, and the request media is
    not even read. *)
Example undecorated_exchange :
  let r := Demo.validate None None (CoroutineFunction (Demo.on_post (JNum 7))) tt
                         (Demo.incoming (JStr "anything")) in
  result r = Returned "201 Created"
  /\ events r = [EvCall; EvReturn]
  /\ Demo.reads (final r) = 0
  /\ Demo.response (final r) = JNum 7.
Proof. repeat split. Qed.

(** ** The theorems at concrete inputs *)

(** C1 on the payload [{}] against the [name] schema. *)
Lemma request_violation_is_bad_request_witness :
  let r := Demo.validate (Some Demo.name_schema) (Some Demo.name_schema)
                         (Function (Demo.on_post JNull)) tt (Demo.incoming (JObj [])) in
  result r = Raised (HTTPBadRequest "Request data failed validation"
                                    (Some "'name' is a required property"))
  /\ final r = Demo.MkWorld (Returned (JObj [])) 1 JNull 0
  /\ (forall e, In e (events r) -> is_responder_step e = false).
Proof.
  exact (request_violation_is_bad_request
           Demo.world Demo.req_media Demo.req_get_media Demo.resp_media
           Jsonschema.validate unit string
           (Function (Demo.on_post JNull)) Demo.name_schema (Some Demo.name_schema)
           tt (Demo.incoming (JObj [])) (JObj []) "'name' is a required property"
           eq_refl eq_refl).
Defined.

(** C2 on a coroutine responder that answers [{}] where [name] is required. *)
Lemma response_violation_is_internal_error_witness :
  let r := Demo.validate (Some Demo.name_schema) (Some Demo.name_schema)
                         (CoroutineFunction (Demo.on_post (JObj []))) tt
                         (Demo.incoming (JObj [("name", JStr "x")])) in
  result r = Raised (HTTPInternalServerError "Response data failed validation" None)
  /\ final r = Demo.MkWorld (Returned (JObj [("name", JStr "x")])) 1 (JObj []) 1
  /\ In EvReturn (events r).
Proof.
  refine (response_violation_is_internal_error
            Demo.world Demo.req_media Demo.req_get_media Demo.resp_media
            Jsonschema.validate unit string
            (CoroutineFunction (Demo.on_post (JObj []))) (Some Demo.name_schema)
            Demo.name_schema tt (Demo.incoming (JObj [("name", JStr "x")]))
            _ "201 Created" "'name' is a required property" _ eq_refl eq_refl).
  exists (JObj [("name", JStr "x")]). split; reflexivity.
Defined.

(** C3 on a valid request answered by a valid response. *)
Lemma valid_exchange_passes_through_witness :
  let r := Demo.validate (Some Demo.name_schema) (Some Demo.name_schema)
                         (Function (Demo.on_post (JObj [("name", JStr "y")]))) tt
                         (Demo.incoming (JObj [("name", JStr "x")])) in
  result r = Returned "201 Created"
  /\ final r = Demo.MkWorld (Returned (JObj [("name", JStr "x")])) 1
                            (JObj [("name", JStr "y")]) 1
  /\ In EvCall (events r) /\ In EvReturn (events r).
Proof.
  refine (valid_exchange_passes_through
            Demo.world Demo.req_media Demo.req_get_media Demo.resp_media
            Jsonschema.validate unit string
            (Function (Demo.on_post (JObj [("name", JStr "y")])))
            (Some Demo.name_schema) (Some Demo.name_schema)
            tt (Demo.incoming (JObj [("name", JStr "x")])) _ "201 Created"
            _ eq_refl eq_refl).
  exists (JObj [("name", JStr "x")]). split; reflexivity.
Defined.

(** C4 on a valid request answered by an invalid response. *)
Lemma sync_and_async_wrappers_agree_witness :
  _validate_async Demo.req_get_media Demo.resp_media Jsonschema.validate
                  (Demo.on_post (JObj [])) (Some Demo.name_schema) (Some Demo.name_schema)
                  tt (Demo.incoming (JObj [("name", JStr "x")]))
  = _validate Demo.req_media Demo.resp_media Jsonschema.validate
              (Demo.on_post (JObj [])) (Some Demo.name_schema) (Some Demo.name_schema)
              tt (Demo.incoming (JObj [("name", JStr "x")])).
Proof.
  apply (sync_and_async_wrappers_agree
           Demo.world Demo.req_media Demo.req_get_media Demo.resp_media
           Jsonschema.validate unit string).
  - reflexivity.
  - intros message H. discriminate H.
Defined.

(** * Further properties of the wrappers *)

(** Reading a property off the stages of a run. *)
Ltac stage_view :=
  rewrite ?validate_exchange in *;
  unfold exchange, request_run, response_run, request_world,
    request_accepted, response_accepted in *;
  cbv zeta in *.

Section FurtherProperties.

Variable world : Type.
Variable req_media : world -> outcome json * world.
Variable req_get_media : world -> outcome json * world.
Variable resp_media : world -> json.
Variable jsonschema_validate : json -> json -> option FormatChecker -> validation.
Variable args : Type.
Variable R : Type.

Local Notation wrapped :=
  (validate req_media req_get_media resp_media jsonschema_validate (args := args) (R := R)).
Local Notation media := (media_of req_media req_get_media (args := args) (R := R)).
Local Notation start := (request_world req_media req_get_media (args := args) (R := R)).
Local Notation accepted_request :=
  (request_accepted req_media req_get_media jsonschema_validate (args := args) (R := R)).
Local Notation accepted_response := (response_accepted resp_media jsonschema_validate).
Local Notation decorated :=
  (decorate req_media req_get_media resp_media jsonschema_validate (args := args) (R := R)).

(** X1.  Reading the request media fails.  The validator is not called and
    the responder is not entered: the only step of the run is the read.
    [_validate] reads [req.media] inside its [try], so a
    [jsonschema.ValidationError] raised by the read becomes an
    [HTTPBadRequest] carrying its message; every other exception, and every
    exception at all in [_validate_async] (which awaits the media before its
    [try]), reaches the caller as it is. *)
Theorem failed_media_read
        (func : callable world args R) (schema : json) (resp_schema : option json)
        (a : args) (w : world) (e : exn) :
  fst (media func w) = Raised e ->
  let r := wrapped (Some schema) resp_schema func a w in
  result r
  = Raised (match e, iscoroutinefunction func with
            | ValidationError message, false =>
                HTTPBadRequest "Request data failed validation" (Some message)
            | _, _ => e
            end)
  /\ final r = snd (media func w)
  /\ events r = [EvMedia (Raised e)].
Proof.
  intros Hmedia r; subst r. stage_view.
  destruct (media func w) as [o w1]; cbn [fst snd] in *; subst o.
  cbn [result final events]. repeat split.
Qed.

(** X2.  A wrapped responder returns only what the responder returned, and
    only when both validations passed: if the run returns [x], then the
    request was accepted (or there is no request schema), the responder
    returned [x], the response it left was accepted (or there is no response
    schema), and the world is the responder's. *)
Theorem return_means_both_validations_passed
        (func : callable world args R) (req_schema resp_schema : option json)
        (a : args) (w : world) (x : R) :
  result (wrapped req_schema resp_schema func a w) = Returned x ->
  accepted_request req_schema func w
  /\ fst (body func a (start req_schema func w)) = Returned x
  /\ accepted_response resp_schema (snd (body func a (start req_schema func w)))
  /\ final (wrapped req_schema resp_schema func a w)
     = snd (body func a (start req_schema func w)).
Proof.
  stage_view. intros Hx.
  destruct req_schema as [rs |].
  - destruct (media func w) as [[m | e] w1] eqn:Hm; cbn [fst snd] in *;
      cbn [result final events] in *; [| discriminate].
    destruct (jsonschema_validate m rs (Some FormatChecker_new)) eqn:Hv;
      cbn [validation_outcome raised_by] in *; try discriminate.
    destruct (body func a w1) as [[y | e] w2]; cbn [result final fst snd] in *;
      [| discriminate].
    destruct resp_schema as [ps |]; cbn [result final] in *.
    + destruct (jsonschema_validate (resp_media w2) ps (Some FormatChecker_new));
        cbn [validation_outcome raised_by] in *; try discriminate.
      same_outcome. repeat split; eauto.
    + same_outcome. repeat split; eauto.
  - cbn [result final events] in *.
    destruct (body func a w) as [[y | e] w2]; cbn [result final fst snd] in *;
      [| discriminate].
    destruct resp_schema as [ps |]; cbn [result final] in *.
    + destruct (jsonschema_validate (resp_media w2) ps (Some FormatChecker_new));
        cbn [validation_outcome raised_by] in *; try discriminate.
      same_outcome. repeat split; eauto.
    + same_outcome. repeat split; eauto.
Qed.

(** X3.  A [jsonschema.ValidationError] raised by one of the wrapper's own
    [jsonschema.validate] calls never reaches the caller.  When a run ends
    in a [ValidationError], the responder raised it, or the run is
    asynchronous and awaiting the request media raised it. *)
Theorem validator_ValidationError_never_escapes
        (func : callable world args R) (req_schema resp_schema : option json)
        (a : args) (w : world) (message : string) :
  let r := wrapped req_schema resp_schema func a w in
  result r = Raised (ValidationError message) ->
  In (EvRaise (ValidationError message)) (events r)
  \/ (iscoroutinefunction func = true
      /\ events r = [EvMedia (Raised (ValidationError message))]).
Proof.
  intro r; subst r. stage_view.
  run_cases; intros Hr; same_outcome; tidy;
    try (left; apply in_or_app; right; cbn; auto; fail);
    try (left; cbn; auto; fail);
    try (right; split; reflexivity).
Qed.

(** X4.  What a wrapper does at most once.  The request media is read
    exactly once when there is a request schema and not at all otherwise;
    the responder is entered at most once; each of the two validations
    happens at most once, the request validation only with a request
    schema and the response validation only with a response schema. *)
Theorem steps_happen_at_most_once
        (func : callable world args R) (req_schema resp_schema : option json)
        (a : args) (w : world) :
  let t := events (wrapped req_schema resp_schema func a w) in
  occurrences is_media_read t = match req_schema with Some _ => 1 | None => 0 end
  /\ occurrences is_call t <= 1
  /\ occurrences is_request_validation t
     <= match req_schema with Some _ => 1 | None => 0 end
  /\ occurrences is_response_validation t
     <= match resp_schema with Some _ => 1 | None => 0 end
  /\ occurrences is_response_validation t <= occurrences is_call t.
Proof.
  intro t; subst t. stage_view. unfold occurrences.
  run_cases; cbn; repeat split; lia.
Qed.

(** X7.  Once the responder has been entered, the world at the end of the
    run is the world the responder left: a response that fails validation
    (or a validator that fails) changes the result of the call, not what the
    responder has done. *)
Theorem responder_effects_are_kept
        (func : callable world args R) (req_schema resp_schema : option json)
        (a : args) (w : world) :
  let r := wrapped req_schema resp_schema func a w in
  In EvCall (events r) ->
  final r = snd (body func a (start req_schema func w)).
Proof.
  intro r; subst r. stage_view.
  run_cases; intros Hc; in_cases; tidy;
    repeat match goal with
           | H : ?l = (_, _) |- context [?l] => rewrite H
           end;
    reflexivity.
Qed.

(** The decorated callable, called: it is the wrapper without its record. *)
Lemma decorate_body (func : callable world args R)
      (req_schema resp_schema : option json) (a : args) (w : world) :
  body (decorated req_schema resp_schema func) a w
  = (result (wrapped req_schema resp_schema func a w),
     final (wrapped req_schema resp_schema func a w)).
Proof. destruct func; reflexivity. Qed.

Lemma decorate_kind (func : callable world args R)
      (req_schema resp_schema : option json) :
  iscoroutinefunction (decorated req_schema resp_schema func)
  = iscoroutinefunction func.
Proof. destruct func; reflexivity. Qed.

Lemma decorate_media (func : callable world args R)
      (req_schema resp_schema : option json) :
  media (decorated req_schema resp_schema func) = media func.
Proof. unfold media_of. rewrite decorate_kind. reflexivity. Qed.

(** The request stage of a decorated callable is the responder's. *)
Lemma decorate_request_run (func : callable world args R)
      (req_schema inner_req inner_resp : option json) (w : world) :
  request_run req_media req_get_media jsonschema_validate req_schema
              (decorated inner_req inner_resp func) w
  = request_run req_media req_get_media jsonschema_validate req_schema func w.
Proof.
  unfold request_run. rewrite decorate_media, decorate_kind. reflexivity.
Qed.

(** The response stage leaves the world as it finds it. *)
Lemma response_run_final (resp_schema : option json) (w : world) :
  final (response_run resp_media jsonschema_validate resp_schema w) = w.
Proof. destruct resp_schema; reflexivity. Qed.

(** X5.  Stacking.  Giving the request schema to one decorator and the
    response schema to another, in either order, is the same for the caller
    as giving both to one decorator: same result, same final world.  The
    decorated callable is a coroutine function exactly when the responder
    is, so both layers read the request media the same way. *)
Theorem stacked_decorators_compose
        (func : callable world args R) (req_schema resp_schema : option json)
        (a : args) (w : world) :
  let one := wrapped req_schema resp_schema func a w in
  let outer_request := wrapped req_schema None (decorated None resp_schema func) a w in
  let outer_response := wrapped None resp_schema (decorated req_schema None func) a w in
  iscoroutinefunction (decorated req_schema resp_schema func) = iscoroutinefunction func
  /\ result outer_request = result one /\ final outer_request = final one
  /\ result outer_response = result one /\ final outer_response = final one.
Proof.
  intros one outer_request outer_response;
    subst one outer_request outer_response.
  split; [apply decorate_kind |].
  rewrite !validate_exchange. unfold exchange; cbv zeta.
  rewrite !decorate_request_run, !decorate_body, !validate_exchange.
  unfold exchange; cbv zeta.
  cbn [request_run response_run result final events].
  destruct (request_run req_media req_get_media jsonschema_validate req_schema func w)
    as [[u | e] w1 ev]; cbn [result final events].
  - destruct (body func a w1) as [[x | e] w2]; cbn [result final events].
    + pose proof (response_run_final resp_schema w2) as Hw.
      destruct (response_run resp_media jsonschema_validate resp_schema w2)
        as [[u' | e'] w3 ev']; cbn [result final events] in *; subst w3;
        repeat split.
    + repeat split.
  - repeat split.
Qed.

(** X6.  A decorator without schemas is transparent: the decorated callable
    is of the same kind as the responder and, on every call, ends as the
    responder does and leaves the world the responder leaves. *)
Theorem decorator_without_schemas_is_transparent
        (func : callable world args R) (a : args) (w : world) :
  iscoroutinefunction (decorated None None func) = iscoroutinefunction func
  /\ body (decorated None None func) a w = body func a w.
Proof.
  split; [apply decorate_kind |].
  rewrite decorate_body, validate_exchange.
  unfold exchange, request_run, response_run; cbv zeta; cbn [result final events].
  destruct (body func a w) as [[x | e] w2]; reflexivity.
Qed.

End FurtherProperties.

(** ** The further properties at concrete inputs *)

(** X1 on a synchronous responder whose request media cannot be read: the
    reader's own [ValidationError] comes out as an [HTTPBadRequest]. *)
Lemma failed_media_read_witness :
  let w := Demo.MkWorld (Raised (ValidationError "unreadable body")) 0 JNull 0 in
  let r := Demo.validate (Some Demo.name_schema) (Some Demo.name_schema)
                         (Function (Demo.on_post JNull)) tt w in
  result r = Raised (HTTPBadRequest "Request data failed validation"
                                    (Some "unreadable body"))
  /\ final r = Demo.MkWorld (Raised (ValidationError "unreadable body")) 1 JNull 0
  /\ events r = [EvMedia (Raised (ValidationError "unreadable body"))].
Proof.
  exact (failed_media_read
           Demo.world Demo.req_media Demo.req_get_media Demo.resp_media
           Jsonschema.validate unit string
           (Function (Demo.on_post JNull)) Demo.name_schema (Some Demo.name_schema) tt
           (Demo.MkWorld (Raised (ValidationError "unreadable body")) 0 JNull 0)
           (ValidationError "unreadable body") eq_refl).
Defined.

(** X2 on a request and a response that both carry a [name]. *)
Lemma return_means_both_validations_passed_witness :
  let func := CoroutineFunction (Demo.on_post (JObj [("name", JStr "y")])) in
  let w := Demo.incoming (JObj [("name", JStr "x")]) in
  let w' := snd (body func tt
                      (request_world Demo.req_media Demo.req_get_media
                                     (Some Demo.name_schema) func w)) in
  request_accepted Demo.req_media Demo.req_get_media Jsonschema.validate
                   (Some Demo.name_schema) func w
  /\ fst (body func tt
               (request_world Demo.req_media Demo.req_get_media
                              (Some Demo.name_schema) func w))
     = Returned "201 Created"
  /\ response_accepted Demo.resp_media Jsonschema.validate (Some Demo.name_schema) w'
  /\ final (Demo.validate (Some Demo.name_schema) (Some Demo.name_schema) func tt w) = w'.
Proof.
  exact (return_means_both_validations_passed
           Demo.world Demo.req_media Demo.req_get_media Demo.resp_media
           Jsonschema.validate unit string
           (CoroutineFunction (Demo.on_post (JObj [("name", JStr "y")])))
           (Some Demo.name_schema) (Some Demo.name_schema) tt
           (Demo.incoming (JObj [("name", JStr "x")])) "201 Created" eq_refl).
Defined.

(** X3 on a responder that raises a [ValidationError] of its own. *)
Lemma validator_ValidationError_never_escapes_witness :
  let func := Function (Demo.on_error (ValidationError "inner")) in
  let r := Demo.validate (Some Demo.name_schema) (Some Demo.name_schema) func tt
                         (Demo.incoming (JObj [("name", JStr "x")])) in
  In (EvRaise (ValidationError "inner")) (events r)
  \/ (iscoroutinefunction func = true
      /\ events r = [EvMedia (Raised (ValidationError "inner"))]).
Proof.
  exact (validator_ValidationError_never_escapes
           Demo.world Demo.req_media Demo.req_get_media Demo.resp_media
           Jsonschema.validate unit string
           (Function (Demo.on_error (ValidationError "inner")))
           (Some Demo.name_schema) (Some Demo.name_schema) tt
           (Demo.incoming (JObj [("name", JStr "x")])) "inner" eq_refl).
Defined.

(** X7 on a responder whose response is rejected: the call ends in an
    internal server error, and the response the responder wrote is there. *)
Lemma responder_effects_are_kept_witness :
  let r := Demo.validate (Some Demo.name_schema) (Some Demo.name_schema)
                         (Function (Demo.on_post (JObj []))) tt
                         (Demo.incoming (JObj [("name", JStr "x")])) in
  final r = Demo.MkWorld (Returned (JObj [("name", JStr "x")])) 1 (JObj []) 1.
Proof.
  refine (responder_effects_are_kept
            Demo.world Demo.req_media Demo.req_get_media Demo.resp_media
            Jsonschema.validate unit string
            (Function (Demo.on_post (JObj [])))
            (Some Demo.name_schema) (Some Demo.name_schema) tt
            (Demo.incoming (JObj [("name", JStr "x")])) _).
  vm_compute. right; right; left; reflexivity.
Defined.

(** Stacked decorators on the example schema: the request is checked by the
    outer one, the response by the inner one. *)
Example stacked_decorators_reject_like_one :
  let inner := decorate Demo.req_media Demo.req_get_media Demo.resp_media
                        Jsonschema.validate None (Some Demo.name_schema)
                        (Function (Demo.on_post (JObj []))) in
  result (Demo.validate (Some Demo.name_schema) None inner tt
                        (Demo.incoming (JObj [("name", JStr "x")])))
  = Raised (HTTPInternalServerError "Response data failed validation" None)
  /\ result (Demo.validate (Some Demo.name_schema) None inner tt
                           (Demo.incoming (JObj [])))
     = Raised (HTTPBadRequest "Request data failed validation"
                              (Some "'name' is a required property")).
Proof. split; reflexivity. Qed.

(** * The wrappers over shared objects *)

Section SharedProperties.

Variable world : Type.
Variable obj : Type.
Variable value : world -> obj -> json.
Variable req_media : world -> outcome obj * world.
Variable req_get_media : world -> outcome obj * world.
Variable resp_media : world -> obj.
Variable jsonschema_validate :
  obj -> obj -> option FormatChecker -> world -> validation * world.
Variable args : Type.
Variable R : Type.

Local Notation wrapped :=
  (Shared.validate value req_media req_get_media resp_media jsonschema_validate
                   (args := args) (R := R)).
Local Notation media := (Shared.media_of req_media req_get_media (args := args) (R := R)).
Local Notation request_stage :=
  (Shared.request_run value req_media req_get_media jsonschema_validate
                      (args := args) (R := R)).
Local Notation response_stage :=
  (Shared.response_run value resp_media jsonschema_validate).
Local Notation staged :=
  (Shared.exchange value req_media req_get_media resp_media jsonschema_validate
                   (args := args) (R := R)).
Local Notation after_read :=
  (Shared.read_world req_media req_get_media (args := args) (R := R)).
Local Notation at_entry :=
  (Shared.entry_world req_media req_get_media jsonschema_validate
                      (args := args) (R := R)).
Local Notation at_exit := (Shared.exit_world resp_media jsonschema_validate).

Lemma shared_sync_request_stage (f : responder world args R)
      (req_schema : option obj) (w : world) :
  match req_schema with
  | Some schema =>
      try_except
        (m <- Shared.get_req_media value req_media ;;
         Shared.call_validate value jsonschema_validate RequestSite m schema
                              (Some FormatChecker_new))
        (except_ValidationError (fun message =>
           raise (HTTPBadRequest "Request data failed validation" (Some message))))
  | None => ret tt
  end w
  = request_stage req_schema (Function f) w.
Proof.
  destruct req_schema as [schema |]; [| reflexivity].
  unfold Shared.request_run, Shared.media_of, try_except, bind,
    Shared.get_req_media, Shared.call_validate.
  cbn [iscoroutinefunction].
  destruct (req_media w) as [[m | e] w1]; cbn [result final events app].
  - destruct (jsonschema_validate m schema (Some FormatChecker_new) w1) as [[] w2];
      reflexivity.
  - destruct e; reflexivity.
Qed.

Lemma shared_async_request_stage (f : responder world args R)
      (req_schema : option obj) (w : world) :
  match req_schema with
  | Some schema =>
      m <- Shared.await_req_get_media value req_get_media ;;
      try_except
        (Shared.call_validate value jsonschema_validate RequestSite m schema
                              (Some FormatChecker_new))
        (except_ValidationError (fun message =>
           raise (HTTPBadRequest "Request data failed validation" (Some message))))
  | None => ret tt
  end w
  = request_stage req_schema (CoroutineFunction f) w.
Proof.
  destruct req_schema as [schema |]; [| reflexivity].
  unfold Shared.request_run, Shared.media_of, try_except, bind,
    Shared.await_req_get_media, Shared.call_validate.
  cbn [iscoroutinefunction].
  destruct (req_get_media w) as [[m | e] w1]; cbn [result final events app].
  - destruct (jsonschema_validate m schema (Some FormatChecker_new) w1) as [[] w2];
      reflexivity.
  - destruct e; reflexivity.
Qed.

Lemma shared_response_stage (resp_schema : option obj) (w : world) :
  match resp_schema with
  | Some schema =>
      try_except
        (m <- Shared.get_resp_media resp_media ;;
         Shared.call_validate value jsonschema_validate ResponseSite m schema
                              (Some FormatChecker_new))
        (except_ValidationError (fun _ =>
           raise (HTTPInternalServerError "Response data failed validation" None)))
  | None => ret tt
  end w
  = response_stage resp_schema w.
Proof.
  destruct resp_schema as [schema |]; [| reflexivity].
  unfold Shared.response_run, try_except, bind, Shared.get_resp_media,
    Shared.call_validate.
  cbn [result final events app].
  destruct (jsonschema_validate (resp_media w) schema (Some FormatChecker_new) w)
    as [[] w2]; reflexivity.
Qed.

Lemma shared_after_request_stage (resp_schema : option obj) (a : args)
      (q : run world unit) (func : callable world args R) :
  match result q with
  | Returned _ =>
      let r :=
        (result <- call_func (body func) a ;;
         match resp_schema with
         | Some schema =>
             try_except
               (m <- Shared.get_resp_media resp_media ;;
                Shared.call_validate value jsonschema_validate ResponseSite m schema
                                     (Some FormatChecker_new))
               (except_ValidationError (fun _ =>
                  raise (HTTPInternalServerError "Response data failed validation"
                                                 None)))
         | None => ret tt
         end ;;;
         ret result) (final q) in
      MkRun (result r) (final r) (events q ++ events r)
  | Raised e => MkRun (Raised e) (final q) (events q)
  end
  = match result q with
    | Raised e => MkRun (Raised e) (final q) (events q)
    | Returned _ =>
        let (o, w2) := body func a (final q) in
        match o with
        | Raised e => MkRun (Raised e) w2 (events q ++ [EvCall; EvRaise e])
        | Returned x =>
            let p := response_stage resp_schema w2 in
            MkRun (match result p with
                   | Returned _ => Returned x
                   | Raised e => Raised e
                   end)
                  (final p) (events q ++ [EvCall; EvReturn] ++ events p)
        end
    end.
Proof.
  destruct q as [[u | e] w1 ev]; cbn [result final events]; [| reflexivity].
  cbv zeta. rewrite bind_run. unfold call_func.
  destruct (body func a w1) as [[x | e] w2]; cbn [result final events]; [| reflexivity].
  rewrite bind_run, shared_response_stage.
  destruct (response_stage resp_schema w2) as [[u' | e'] w3 ev'];
    cbn [result final events ret app]; [rewrite app_nil_r |]; reflexivity.
Qed.

(** What a wrapped responder computes, over shared objects. *)
Lemma shared_validate_exchange (func : callable world args R)
      (req_schema resp_schema : option obj) (a : args) (w : world) :
  wrapped req_schema resp_schema func a w = staged req_schema resp_schema func a w.
Proof.
  unfold Shared.exchange; cbv zeta.
  destruct func as [f | f]; unfold Shared.validate, Shared._validate,
    Shared._validate_async; cbn [iscoroutinefunction]; rewrite bind_run.
  - rewrite (shared_sync_request_stage f).
    apply (shared_after_request_stage resp_schema a _ (Function f)).
  - rewrite (shared_async_request_stage f).
    apply (shared_after_request_stage resp_schema a _ (CoroutineFunction f)).
Qed.

(** C8.  A wrapper writes to no object.  The world goes through exactly the
    steps the wrapper delegates: the read of the request media, the request
    validation, the responder, the response validation.  A run that does not
    enter the responder ends in the world the request stage left; a run that
    does ends in the world the responder left, followed by the response
    validation if the responder returned.  Hence, with a validator that
    writes to none of the objects (as the package's does not) and does not
    re-bind [resp.media]: every object (the request payload, the two schema
    objects) holds at the entry of the responder what it held when the
    request media had been read; every object (the response payload the
    responder wrote, the schema objects) holds at the end of the call what it
    held when the responder ended; and [resp.media] is the object the
    responder left.  This holds for both wrappers. *)
Theorem wrapper_writes_to_no_object
        (func : callable world args R) (req_schema resp_schema : option obj)
        (a : args) (w : world) :
  (forall i s fc w0 o, value (snd (jsonschema_validate i s fc w0)) o = value w0 o) ->
  (forall i s fc w0, resp_media (snd (jsonschema_validate i s fc w0)) = resp_media w0) ->
  let r := wrapped req_schema resp_schema func a w in
  let w_in := at_entry req_schema func w in
  let w_out := snd (body func a w_in) in
  (forall o, value w_in o = value (after_read req_schema func w) o)
  /\ (~ In EvCall (events r) -> final r = w_in)
  /\ (In EvCall (events r) ->
      final r = match fst (body func a w_in) with
                | Returned _ => at_exit resp_schema w_out
                | Raised _ => w_out
                end
      /\ (forall o, value (final r) o = value w_out o)
      /\ resp_media (final r) = resp_media w_out).
Proof.
  intros Hvalue Hresp r w_in w_out; subst r w_in w_out.
  rewrite shared_validate_exchange.
  assert (Hexit : forall w0,
             final (response_stage resp_schema w0) = at_exit resp_schema w0).
  { intro w0. unfold Shared.response_run, Shared.exit_world.
    destruct resp_schema as [ps |]; [| reflexivity].
    destruct (jsonschema_validate (resp_media w0) ps (Some FormatChecker_new) w0);
      reflexivity. }
  assert (Hkeep : forall w0 o, value (at_exit resp_schema w0) o = value w0 o).
  { intros w0 o. unfold Shared.exit_world.
    destruct resp_schema as [ps |]; [apply Hvalue | reflexivity]. }
  assert (Hbind : forall w0, resp_media (at_exit resp_schema w0) = resp_media w0).
  { intro w0. unfold Shared.exit_world.
    destruct resp_schema as [ps |]; [apply Hresp | reflexivity]. }
  assert (Hentered : forall (q : run world unit) (u : unit),
             result q = Returned u ->
             let r := match result q with
                      | Raised e => MkRun (Raised e) (final q) (events q)
                      | Returned _ =>
                          let (o, w2) := body func a (final q) in
                          match o with
                          | Raised e =>
                              MkRun (Raised e) w2 (events q ++ [EvCall; EvRaise e])
                          | Returned x =>
                              let p := response_stage resp_schema w2 in
                              MkRun (match result p with
                                     | Returned _ => Returned x
                                     | Raised e => Raised e
                                     end)
                                    (final p)
                                    (events q ++ [EvCall; EvReturn] ++ events p)
                          end
                      end in
             In EvCall (events r)
             /\ final r = match fst (body func a (final q)) with
                          | Returned _ => at_exit resp_schema (snd (body func a (final q)))
                          | Raised _ => snd (body func a (final q))
                          end).
  { intros q u Hq; cbv zeta. rewrite Hq.
    destruct (body func a (final q)) as [[x | e] w2]; cbn [result final events fst snd].
    - split; [apply in_or_app; right; cbn; auto | apply Hexit].
    - split; [apply in_or_app; right; cbn; auto | reflexivity]. }
  split.
  - intro o. unfold Shared.entry_world, Shared.read_world.
    destruct req_schema as [rs |]; [| reflexivity].
    destruct (media func w) as [[m | e] w1]; cbn [snd]; [apply Hvalue | reflexivity].
  - assert (Hq : final (request_stage req_schema func w) = at_entry req_schema func w).
    { unfold Shared.request_run, Shared.entry_world.
      destruct req_schema as [rs |]; [| reflexivity].
      destruct (media func w) as [[m | e] w1]; [| reflexivity].
      destruct (jsonschema_validate m rs (Some FormatChecker_new) w1); reflexivity. }
    assert (Hq' : forall e, In e (events (request_stage req_schema func w)) ->
                            e <> EvCall).
    { unfold Shared.request_run.
      destruct req_schema as [rs |]; [| intros e []].
      destruct (media func w) as [[m | e] w1].
      - destruct (jsonschema_validate m rs (Some FormatChecker_new) w1).
        cbn [events]. intros e [<- | [<- | []]]; discriminate.
      - cbn [events]. intros e0 [<- | []]; discriminate. }
    unfold Shared.exchange; cbv zeta.
    destruct (result (request_stage req_schema func w)) as [u | e] eqn:Hres.
    + pose proof (Hentered _ u Hres) as Hin; cbv zeta in Hin. rewrite Hres in Hin.
      rewrite Hq in Hin |- *. destruct Hin as [Hin Hfinal].
      split; [intros Hn; exfalso; exact (Hn Hin) |].
      intros _. split; [exact Hfinal |].
      rewrite Hfinal.
      destruct (fst (body func a (at_entry req_schema func w)));
        split; auto.
    + cbn [result final events]. split; [intros _; exact Hq |].
      intros Hin. exfalso. exact (Hq' _ Hin eq_refl).
Qed.

End SharedProperties.

(** C8 on the store of numbered objects, with the package's validator: a
    valid request, answered by a response that fails validation. *)
Lemma wrapper_writes_to_no_object_witness :
  let func := Function (Shared.on_post (JObj [])) in
  let w := Shared.incoming (JObj [("name", JStr "x")]) in
  let r := Shared.validate Shared.value Shared.req_media Shared.req_media
                           Shared.resp_media Shared.jsonschema_validate
                           (Some 0) (Some 0) func tt w in
  let w_in := Shared.entry_world Shared.req_media Shared.req_media
                                 Shared.jsonschema_validate (Some 0) func w in
  let w_out := snd (body func tt w_in) in
  (forall o, Shared.value w_in o
             = Shared.value (Shared.read_world Shared.req_media Shared.req_media
                                               (Some 0) func w) o)
  /\ (~ In EvCall (events r) -> final r = w_in)
  /\ (In EvCall (events r) ->
      final r = match fst (body func tt w_in) with
                | Returned _ =>
                    Shared.exit_world Shared.resp_media Shared.jsonschema_validate
                                      (Some 0) w_out
                | Raised _ => w_out
                end
      /\ (forall o, Shared.value (final r) o = Shared.value w_out o)
      /\ Shared.resp_media (final r) = Shared.resp_media w_out).
Proof.
  exact (wrapper_writes_to_no_object
           Shared.store nat Shared.value Shared.req_media Shared.req_media
           Shared.resp_media Shared.jsonschema_validate unit string
           (Function (Shared.on_post (JObj []))) (Some 0) (Some 0) tt
           (Shared.incoming (JObj [("name", JStr "x")]))
           (fun _ _ _ _ _ => eq_refl) (fun _ _ _ _ => eq_refl)).
Defined.

(** The same call, run: the request payload and the schema are what they
    were, the response object is the one the responder created, and the
    caller gets the internal server error. *)
Example shared_objects_after_a_rejected_response :
  let r := Shared.validate Shared.value Shared.req_media Shared.req_media
                           Shared.resp_media Shared.jsonschema_validate
                           (Some 0) (Some 0) (Function (Shared.on_post (JObj []))) tt
                           (Shared.incoming (JObj [("name", JStr "x")])) in
  result r = Raised (HTTPInternalServerError "Response data failed validation" None)
  /\ Shared.objects (final r)
     = [JObj [("type", JStr "object"); ("required", JArr [JStr "name"])];
        JObj [("name", JStr "x")];
        JObj []]
  /\ Shared.response (final r) = 2.
Proof. repeat split. Qed.

(** What the hypothesis of C8 excludes.  Had the validator been one that
    writes to the object it is handed (here: one that fills in a missing
    [name]), the wrapper would pass the write on: the responder would find
    the request payload changed. *)
Example a_writing_validator_is_seen :
  let func := Function (Shared.on_post (JObj [("name", JStr "y")])) in
  let w := Shared.incoming (JObj []) in
  let r := Shared.validate Shared.value Shared.req_media Shared.req_media
                           Shared.resp_media Shared.filling_validate
                           (Some 0) None func tt w in
  result r = Returned "201 Created"
  /\ Shared.value w 1 = JObj []
  /\ Shared.value (final r) 1 = JObj [("name", JStr "anonymous")].
Proof. repeat split. Qed.
